(** * ChaincodeBase: dispatch, argument coercion, response encoding, migrations

    A shallow embedding of [src/lib/ChaincodeBase.js].  The class is read as a
    family of functions over an explicit instance state; exceptions (and the
    rejections of [async] methods, which [await] turns back into exceptions)
    are an outcome, and every call the class makes on a collaborator is
    recorded in a trace.

    Conventions.
    - A JavaScript string is represented by the bytes of its UTF-8 encoding,
      so [Buffer.from(text)] is the byte list of the string.
    - Numbers are restricted to the integers and [NaN]; only their
      truthiness is ever inspected by the class.
    - A thrown value is an error object: an instance of [ChaincodeError] or
      a native error with a name and a message.
    - [JSON.stringify] and [normalizePayload] are taken on the values on
      which they return; a payload on which one of them throws (a BigInt, a
      cyclic object) is outside the model. *)

From Stdlib Require Import ZArith Strings.String Strings.Byte Lists.List.
From stdpp Require Import base option list strings pretty gmap.

Set Warnings "-register-all".
Local Open Scope string_scope.

(** ** Values *)

(** The invocation descriptor handed in by the execution environment
    ([stub.getFunctionAndParameters()] and [stub.getTxID()]). *)
Record Stub : Type := mkStub {
  fcn : string;
  params : list string;
  txID : string
}.

(** Function-valued members of a handler instance. *)
Inductive method : Type :=
  | UserOp (name : string)       (* defined by the concrete handler class *)
  | BaseInit
  | BaseInvoke
  | BaseRunMigrations
  | BasePing
  | Inherited (name : string).   (* any other member of the prototype chain *)

(** JavaScript values.  Modelled from the spec: the class
    [TransactionHelper] of [lib/TransactionHelper], whose default instance
    wraps the stub with no extra behaviour, is the constructor [VTxHelper]. *)
Inductive value : Type :=
  | VUndefined
  | VNull
  | VBool (b : bool)
  | VNum (n : Z)
  | VNaN
  | VStr (s : string)
  | VBuffer (bytes : list byte)
  | VArr (items : list value)
  | VObj (fields : list (string * value))
  | VFun (m : method)
  | VTxHelper (stub : Stub)      (* new TransactionHelper(stub) *)
  | VHost (tag : string).        (* shim, logger and other host objects *)

(** [!v] is [negb (truthy v)]. *)
Definition truthy (v : value) : bool :=
  match v with
  | VUndefined | VNull | VNaN => false
  | VBool b => b
  | VNum n => negb (n =? 0)%Z
  | VStr s => negb (String.eqb s EmptyString)
  | _ => true
  end.

(** [Buffer.isBuffer(v)] *)
Definition isBuffer (v : value) : bool :=
  match v with VBuffer _ => true | _ => false end.

Definition utf8 (s : string) : list byte := list_byte_of_string s.

(** ** Errors *)

(** Modelled from the spec: the constants of [constants/errors], which are
    not part of the sources at hand; the error taxonomy names these four
    kinds and leaves the set open. *)
Inductive errkind : Type :=
  | MIGRATION_PATH_NOT_DEFINED
  | UNKNOWN_FUNCTION
  | PARSING_PARAMETERS_ERROR
  | UNKNOWN_ERROR
  | OTHER_KIND (code : string).

(** Modelled from the spec: the class [ChaincodeError] of
    [lib/ChaincodeError], built as [new ChaincodeError(key, data)]; an
    omitted [data] is [VUndefined]. *)
Record ChaincodeError : Type := new_ChaincodeError {
  key : errkind;
  data : value
}.

Inductive exn : Type :=
  | ChaincodeErr (e : ChaincodeError)        (* err instanceof ChaincodeError *)
  | NativeErr (name : string) (message : string).

Inductive outcome (A : Type) : Type :=
  | Returned (a : A)
  | Thrown (err : exn)
  | Diverged.                                (* the recursion budget ran out *)
Arguments Returned {A} a.
Arguments Thrown {A} err.
Arguments Diverged {A}.

(** ** Instance state and trace *)

Inductive level : Type := Info | Error.

Inductive logline : Type :=
  | LInstantiated (name : string)
  | LInvoked (name fn tx : string)
  | LUnknownFunction (fn : string)
  | LComplete (name fn tx : string)
  | LStack (err : exn)
  | LErrorData (message : string) (json : option string)
  | LFailed (name : string) (fn : value) (tx : string).

Inductive event : Type :=
  | EvLog (lvl : level) (line : logline)              (* this.logger.info / error *)
  | EvParseParameters (raw : list string)             (* this.parseParameters(params) *)
  | EvGetTransactionHelper (stub : Stub)              (* this.getTransactionHelperFor(stub) *)
  | EvCall (m : method) (args : list value)           (* method.call(this, stub, txHelper, ...) *)
  | EvExecutor (path : value) (args : list value).    (* migrations.runMigrations(path, ...) *)

(** The field [migrating] of the instance, the bindings of the global
    object (where an identifier that no enclosing scope declares is looked
    up), and the calls made so far, oldest first. *)
Record State : Type := mkState {
  migrating : bool;
  globals : gmap string value;
  trace : list event
}.

Definition set_migrating (b : bool) (st : State) : State :=
  mkState b (globals st) (trace st).

Definition set_global (x : string) (v : value) (st : State) : State :=
  mkState (migrating st) (<[x := v]> (globals st)) (trace st).

Definition emit (e : event) (st : State) : State :=
  mkState (migrating st) (globals st) (trace st ++ [e]).

(** ** A state and exception monad *)

Definition M (A : Type) : Type := State -> State * outcome A.

Definition ret {A} (a : A) : M A := fun st => (st, Returned a).
Definition throw {A} (err : exn) : M A := fun st => (st, Thrown err).
Definition diverge {A} : M A := fun st => (st, Diverged).

Definition bind {A B} (c : M A) (k : A -> M B) : M B :=
  fun st =>
    match c st with
    | (st', Returned a) => k a st'
    | (st', Thrown err) => (st', Thrown err)
    | (st', Diverged) => (st', Diverged)
    end.

(** [try { c } catch (err) { h err }] *)
Definition try_catch {A} (c : M A) (h : exn -> M A) : M A :=
  fun st =>
    match c st with
    | (st', Thrown err) => h err st'
    | r => r
    end.

Definition lift {A} (o : outcome A) : M A := fun st => (st, o).
Definition get_state : M State := fun st => (st, Returned st).
Definition modify (f : State -> State) : M unit := fun st => (f st, Returned tt).
Definition tell (e : event) : M unit := modify (emit e).

Notation "'let*' x ':=' c 'in' k" := (bind c (fun x => k))
  (at level 10, x name, c at level 100, k at level 200).
Notation "'do*' c 'in' k" := (bind c (fun _ => k))
  (at level 10, c at level 100, k at level 200).

(** An unqualified identifier that only the global object can bind. *)
Definition read_global (x : string) : M value :=
  fun st =>
    match globals st !! x with
    | Some v => (st, Returned v)
    | None => (st, Thrown (NativeErr "ReferenceError" (x ++ " is not defined")))
    end.

(** [o.p] for a data property [p]. *)
Definition get_field (o : value) (p : string) : outcome value :=
  match o with
  | VUndefined | VNull =>
      Thrown (NativeErr "TypeError" ("Cannot read property '" ++ p ++ "'"))
  | VObj fields =>
      match find (fun kv => String.eqb (fst kv) p) fields with
      | Some kv => Returned (snd kv)
      | None => Returned VUndefined
      end
  | _ => Returned VUndefined
  end.

(** ** Collaborators *)

(** What the class consumes from outside this file: the built-ins
    [JSON.parse] and [JSON.stringify], the [shim] handed to the constructor,
    and the modules of the repository it requires. *)
Record Host : Type := mkHost {
  (* JSON.parse(text): the decoded value, or the message of the SyntaxError *)
  JSON_parse : string -> value + string;
  (* JSON.stringify(v): a text, or undefined; v ranges over the values on
     which the call returns *)
  JSON_stringify : value -> option string;
  (* utils/normalizePayload, on the values on which it returns *)
  normalizePayload : value -> value;
  (* the getter [serialized] of ChaincodeError *)
  serialized : ChaincodeError -> value;
  (* the message of a ChaincodeError of the given kind *)
  message_of_kind : errkind -> string;
  (* shim.success(payload) and shim.error(message) *)
  shim_success : value -> value;
  shim_error : value -> value;
  (* utils/migrations: runMigrations(path, this, stub, txHelper, args); the
     instance it receives is the state the computation runs on *)
  migrations_runMigrations : value -> Stub -> value -> list value -> M value
}.

(** An operation of a handler, called as
    [method.call(this, stub, txHelper, ...args)]. *)
Definition operation : Type := Stub -> value -> list value -> M value.

(** The concrete handler class that extends [ChaincodeBase]. *)
Record Handler : Type := mkHandler {
  (* this.constructor.name *)
  className : string;
  (* what [this.migrationsPath] reads as when the subclass defines a member
     of that name (for a method of that name, the function value) *)
  migrationsPath : option value;
  (* [getTransactionHelperFor] of the subclass, when it overrides it *)
  transactionHelperFor : option (Stub -> M value);
  (* the methods the subclass adds or overrides; its member
     [migrationsPath] is read from the field above *)
  operations : gmap string operation;
  (* what the remaining members of the prototype chain do when they are
     called as an operation *)
  inherited_call : string -> operation
}.

(** The methods of [ChaincodeBase.prototype], then those of
    [Object.prototype]. *)
Definition base_methods : list (string * method) :=
  [ ("constructor", Inherited "constructor");
    ("getTransactionHelperFor", Inherited "getTransactionHelperFor");
    ("setupInvoke", Inherited "setupInvoke");
    ("parseParameters", Inherited "parseParameters");
    ("prepareResponsePayload", Inherited "prepareResponsePayload");
    ("Init", BaseInit);
    ("Invoke", BaseInvoke);
    ("runMigrations", BaseRunMigrations);
    ("ping", BasePing);
    ("__defineGetter__", Inherited "__defineGetter__");
    ("__defineSetter__", Inherited "__defineSetter__");
    ("hasOwnProperty", Inherited "hasOwnProperty");
    ("__lookupGetter__", Inherited "__lookupGetter__");
    ("__lookupSetter__", Inherited "__lookupSetter__");
    ("isPrototypeOf", Inherited "isPrototypeOf");
    ("propertyIsEnumerable", Inherited "propertyIsEnumerable");
    ("toString", Inherited "toString");
    ("valueOf", Inherited "valueOf");
    ("toLocaleString", Inherited "toLocaleString") ].

Definition assoc {A} (k : string) (l : list (string * A)) : option A :=
  snd <$> find (fun kv => String.eqb (fst kv) k) l.

Definition message_of (H : Host) (err : exn) : string :=
  match err with
  | ChaincodeErr e => message_of_kind H (key e)
  | NativeErr _ m => m
  end.

Definition data_of (err : exn) : value :=
  match err with
  | ChaincodeErr e => data e
  | NativeErr _ _ => VUndefined
  end.

Section ChaincodeBase.

Variable H : Host.
Variable C : Handler.

(** *** parseParameters (lines 59-74) *)

Definition JSON_parse_call (text : string) : outcome value :=
  match JSON_parse H text with
  | inl v => Returned v
  | inr msg => Thrown (NativeErr "SyntaxError" msg)
  end.

(** [params.forEach(...)] with the array [parsedParams] it pushes onto. *)
Fixpoint forEach_push (params : list string) (parsedParams : list value)
  : outcome (list value) :=
  match params with
  | [] => Returned parsedParams
  | param :: rest =>
      match JSON_parse_call param with
      | Returned v => forEach_push rest (parsedParams ++ [v])
      | Thrown _ => forEach_push rest (parsedParams ++ [VStr param])
      | Diverged => Diverged
      end
  end.

Definition parseParameters (params : list string) : outcome (list value) :=
  forEach_push params [].

(** *** prepareResponsePayload (lines 80-86) *)

(** [Buffer.from(x)] where [x] is a text or [undefined]. *)
Definition Buffer_from (x : option string) : outcome value :=
  match x with
  | Some s => Returned (VBuffer (utf8 s))
  | None =>
      Thrown (NativeErr "TypeError"
                "The first argument must be of type string or an instance of Buffer")
  end.

Definition prepareResponsePayload (payload txHelper : value) : outcome value :=
  if negb (isBuffer payload) then
    Buffer_from (if truthy payload
                 then JSON_stringify H (normalizePayload H payload)
                 else Some EmptyString)
  else Returned payload.

(** *** Getters and property lookup *)

(** [this.name] *)
Definition name : string := className C.

(** [this.migrationsPath] (lines 31-34 unless the subclass overrides it) *)
Definition get_migrationsPath : outcome value :=
  match migrationsPath C with
  | Some p => Returned p
  | None =>
      Thrown (ChaincodeErr (new_ChaincodeError MIGRATION_PATH_NOT_DEFINED VUndefined))
  end.

(** The fields the constructor sets (lines 15-17). *)
Definition own_fields (st : State) : list (string * value) :=
  [ ("shim", VHost "shim");
    ("migrating", VBool (migrating st));
    ("logger", VHost "logger") ].

(** [this[p]]: the fields of the instance, then the members of the
    subclass, then those of the base class (the getter [name], the getter
    [migrationsPath] of lines 31-34, the methods), then [Object.prototype].
    A name found nowhere reads as [undefined]. *)
Definition member (st : State) (p : string) : outcome value :=
  match assoc p (own_fields st) with
  | Some v => Returned v
  | None =>
      if String.eqb p "migrationsPath" then get_migrationsPath
      else match operations C !! p with
           | Some _ => Returned (VFun (UserOp p))
           | None =>
               if String.eqb p "name" then Returned (VStr name)
               else match assoc p base_methods with
                    | Some m => Returned (VFun m)
                    | None =>
                        if String.eqb p "__proto__" then Returned (VHost "prototype")
                        else Returned VUndefined
                    end
           end
  end.

Definition get_member (p : string) : M value :=
  fun st => (st, member st p).

(** *** getTransactionHelperFor and setupInvoke (lines 40-53) *)

Definition getTransactionHelperFor (stub : Stub) : M value :=
  match transactionHelperFor C with
  | Some make => make stub
  | None => ret (VTxHelper stub)
  end.

Definition setupInvoke (stub : Stub) (params : list string) : M value :=
  do* tell (EvParseParameters params) in
  let* parsedParameters := lift (parseParameters params) in
  do* tell (EvGetTransactionHelper stub) in
  let* txHelper := getTransactionHelperFor stub in
  ret (VObj [("parsedParameters", VArr parsedParameters); ("txHelper", txHelper)]).

(** *** Init, ping, runMigrations *)

Definition Init : M value :=
  do* tell (EvLog Info (LInstantiated name)) in
  ret (shim_success H VUndefined).

Definition ping : M value := ret (VStr "pong").

(** Lines 160-166.  The arguments of the call on line 162 are evaluated,
    left to right, before the executor is entered. *)
Definition runMigrations (stub : Stub) (txHelper : value) (args : list value)
  : M value :=
  do* modify (set_migrating true) in
  let* path := lift get_migrationsPath in
  do* tell (EvExecutor path args) in
  let* result := migrations_runMigrations H path stub txHelper args in
  do* modify (set_migrating false) in
  ret result.

(** *** Invoke (lines 100-151) *)

(** [method.call(this, stub, txHelper, ...args)]; [self] is [Invoke]. *)
Definition call (self : Stub -> M value) (method : value)
    (stub : Stub) (txHelper : value) (args : list value) : M value :=
  match method with
  | VFun m =>
      do* tell (EvCall m args) in
      match m with
      | UserOp p =>
          match operations C !! p with
          | Some op => op stub txHelper args
          | None => throw (NativeErr "TypeError" "method.call is not a function")
          end
      | BaseInit => Init
      | BaseInvoke => self stub
      | BaseRunMigrations => runMigrations stub txHelper args
      | BasePing => ping
      | Inherited p => inherited_call C p stub txHelper args
      end
  | _ => throw (NativeErr "TypeError" "method.call is not a function")
  end.

(** [...parsedParameters] *)
Definition spread (v : value) : M (list value) :=
  match v with
  | VArr items => ret items
  | _ => throw (NativeErr "TypeError" "parsedParameters is not iterable")
  end.

(** Line 120, [setup = this.setupInvoke(stub, ret.params)].  No scope of the
    file declares [setup] and a class body is strict code: the right-hand
    side is evaluated, and the store then throws unless the global object
    has a property [setup]. *)
Definition assign_setup (stub : Stub) (params : list string) : M unit :=
  let* v := setupInvoke stub params in
  let* st := get_state in
  if bool_decide (is_Some (globals st !! "setup"))
  then modify (set_global "setup" v)
  else throw (NativeErr "ReferenceError" "setup is not defined").

(** Lines 117-127. *)
Definition setup_block (stub : Stub) (params : list string) : M (value * value) :=
  try_catch
    (do* assign_setup stub params in
     let* s1 := read_global "setup" in
     let* parsedParameters := lift (get_field s1 "parsedParameters") in
     let* s2 := read_global "setup" in
     let* txHelper := lift (get_field s2 "txHelper") in
     ret (parsedParameters, txHelper))
    (fun err =>
       throw (ChaincodeErr (new_ChaincodeError PARSING_PARAMETERS_ERROR
                (VObj [("message", VStr (message_of H err))])))).

(** Lines 101-134, the [try] block. *)
Definition Invoke_try (self : Stub -> M value) (stub : Stub) : M value :=
  let ret_fcn := fcn stub in
  let ret_params := params stub in
  do* tell (EvLog Info (LInvoked name ret_fcn (txID stub))) in
  let* method := get_member ret_fcn in
  if negb (truthy method) then
    do* tell (EvLog Error (LUnknownFunction ret_fcn)) in
    ret (shim_error H (serialized H
           (new_ChaincodeError UNKNOWN_FUNCTION (VObj [("fn", VStr ret_fcn)]))))
  else
    let* setup := setup_block stub ret_params in
    let* args := spread (fst setup) in
    let* payload := call self method stub (snd setup) args in
    let* payload := lift (prepareResponsePayload payload (snd setup)) in
    do* tell (EvLog Info (LComplete name ret_fcn (txID stub))) in
    ret (shim_success H payload).

(** Lines 129-134 alone, given the call of line 129 as [body]. *)
Definition after_call (stub : Stub) (txHelper : value) (body : M value) : M value :=
  let* payload := body in
  let* payload := lift (prepareResponsePayload payload txHelper) in
  do* tell (EvLog Info (LComplete name (fcn stub) (txID stub))) in
  ret (shim_success H payload).

(** Lines 135-150, the [catch] block.  [ret] is declared by [const] inside
    the [try] block, so here the identifier is out of that scope and is
    looked up in the global object. *)
Definition Invoke_catch (stub : Stub) (err : exn) : M value :=
  let error :=
    match err with
    | ChaincodeErr e => e
    | NativeErr _ _ =>
        new_ChaincodeError UNKNOWN_ERROR (VObj [("message", VStr (message_of H err))])
    end in
  do* tell (EvLog Error (LStack err)) in
  do* tell (EvLog Error (LErrorData (message_of H err) (JSON_stringify H (data_of err)))) in
  let* ret_ := read_global "ret" in
  let* ret_fcn := lift (get_field ret_ "fcn") in
  do* tell (EvLog Error (LFailed name ret_fcn (txID stub))) in
  ret (shim_error H (serialized H error)).

Definition Invoke_body (self : Stub -> M value) (stub : Stub) : M value :=
  try_catch (Invoke_try self stub) (Invoke_catch stub).

(** [fuel] bounds how deep [Invoke] may re-enter itself through an
    invocation that names [Invoke]. *)
Fixpoint Invoke (fuel : nat) (stub : Stub) : M value :=
  Invoke_body
    (match fuel with
     | O => fun _ => diverge
     | S fuel' => Invoke fuel'
     end)
    stub.

End ChaincodeBase.

(** ** Sample collaborators

    A host and some handler classes on which the definitions above can be
    run.  The JSON functions cover the scalars, arrays and plain objects,
    without escape sequences. *)

Definition dquote : string := String (Ascii.ascii_of_nat 34) EmptyString.
Definition quote (s : string) : string := dquote ++ s ++ dquote.

Definition kind_code (k : errkind) : string :=
  match k with
  | MIGRATION_PATH_NOT_DEFINED => "MIGRATION_PATH_NOT_DEFINED"
  | UNKNOWN_FUNCTION => "UNKNOWN_FUNCTION"
  | PARSING_PARAMETERS_ERROR => "PARSING_PARAMETERS_ERROR"
  | UNKNOWN_ERROR => "UNKNOWN_ERROR"
  | OTHER_KIND code => code
  end.

Fixpoint sample_stringify (v : value) : option string :=
  match v with
  | VUndefined | VFun _ => None
  | VNull | VNaN => Some "null"
  | VBool b => Some (if b then "true" else "false")
  | VNum n => Some (pretty n)
  | VStr s => Some (quote s)
  | VArr items =>
      Some ("[" ++ String.concat ","
                     (map (fun x => default "null" (sample_stringify x)) items)
                ++ "]")
  | VObj fields =>
      Some ("{" ++ String.concat ","
                     (omap (fun kv : string * value =>
                              let (k, x) := kv in
                              (fun t => quote k ++ ":" ++ t) <$> sample_stringify x)
                           fields)
                ++ "}")
  | VBuffer _ | VTxHelper _ | VHost _ => Some "{}"
  end.

(** The three texts of the specification's example and nothing else. *)
Definition sample_parse (text : string) : value + string :=
  if String.eqb text "123" then inl (VNum 123)
  else if String.eqb text (quote "abc") then inl (VStr "abc")
  else inr ("Unexpected token in JSON: " ++ text).

Definition sample_host (executor : value -> Stub -> value -> list value -> M value)
  : Host :=
  {| JSON_parse := sample_parse;
     JSON_stringify := sample_stringify;
     normalizePayload := fun v => v;
     serialized := fun e =>
       VStr (default EmptyString
               (sample_stringify
                  (VObj [("key", VStr (kind_code (key e))); ("data", data e)])));
     message_of_kind := kind_code;
     shim_success := fun payload => VObj [("status", VNum 200); ("payload", payload)];
     shim_error := fun msg => VObj [("status", VNum 500); ("message", msg)];
     migrations_runMigrations := executor |}.

(** An executor whose migrations all apply, and one whose first migration
    throws. *)
Definition applying_executor : value -> Stub -> value -> list value -> M value :=
  fun _ _ _ _ => ret (VStr "applied").

Definition failing_executor : value -> Stub -> value -> list value -> M value :=
  fun _ _ _ _ => throw (NativeErr "Error" "boom").

Definition no_inherited_call : string -> operation :=
  fun _ _ _ _ => throw (NativeErr "TypeError" "not callable as an operation").

(** A handler that adds nothing to the base class. *)
Definition plain_handler : Handler :=
  {| className := "PlainChaincode";
     migrationsPath := None;
     transactionHelperFor := None;
     operations := ∅;
     inherited_call := no_inherited_call |}.

(** A handler that configures a migrations path. *)
Definition migrating_handler : Handler :=
  {| className := "MigratingChaincode";
     migrationsPath := Some (VStr "./migrations");
     transactionHelperFor := None;
     operations := ∅;
     inherited_call := no_inherited_call |}.

(** A handler with an operation that throws a plain error. *)
Definition exploding_handler : Handler :=
  {| className := "ExplodingChaincode";
     migrationsPath := None;
     transactionHelperFor := None;
     operations := {[ "explode" := (fun _ _ _ => throw (NativeErr "Error" "boom")) : operation ]};
     inherited_call := no_inherited_call |}.

(** The instance as the constructor leaves it, in a process whose global
    object binds neither [setup] nor [ret]. *)
Definition fresh_instance : State := mkState false ∅ [].

(** The same instance in a process where some other script has created a
    global [setup]. *)
Definition instance_with_global_setup : State :=
  mkState false {[ "setup" := VUndefined ]} [].

Definition ping_stub : Stub := mkStub "ping" [] "tx-1".
Definition init_stub : Stub := mkStub "Init" [] "tx-2".
Definition explode_stub : Stub := mkStub "explode" [] "tx-3".
Definition missing_stub : Stub := mkStub "doesNotExist" [] "tx-4".


(** ** The specification's wording, for comparison with the code *)

(** A parsed argument: the decoded value when decoding succeeds, the
    original raw string when it fails. *)
Definition decode_or_raw (H : Host) (raw : string) : value :=
  match JSON_parse H raw with
  | inl v => v
  | inr _ => VStr raw
  end.

(** The operations a handler exposes: the methods its class defines, and
    the two operations of the base class, [ping] and [runMigrations].  The
    lifecycle methods [Init] and [Invoke] are not among them. *)
Definition exposed_operation (C : Handler) (p : string) : Prop :=
  is_Some (operations C !! p) \/ p = "ping" \/ p = "runMigrations".

(** [p in this]: the instance, its class, the base class or
    [Object.prototype] has a property named [p]. *)
Definition has_property (C : Handler) (p : string) : bool :=
  existsb (fun k => String.eqb k p) ["shim"; "migrating"; "logger"]
  || String.eqb p "migrationsPath"
  || bool_decide (is_Some (operations C !! p))
  || String.eqb p "name"
  || bool_decide (is_Some (assoc p base_methods))
  || String.eqb p "__proto__".

(** The lookup of line 108 completes with a falsy value, so that the test of
    line 109 succeeds. *)
Definition reads_falsy (C : Handler) (st : State) (p : string) : Prop :=
  exists v, member C st p = Returned v /\ truthy v = false.

(** The steps of a dispatch that come after the resolution of the name. *)
Definition dispatch_step (e : event) : bool :=
  match e with
  | EvLog _ _ => false
  | EvParseParameters _ | EvGetTransactionHelper _ | EvCall _ _ | EvExecutor _ _ => true
  end.

(** The failure result that reports an unknown function. *)
Definition unknown_function_failure (H : Host) (fn : string) : value :=
  shim_error H (serialized H
    (new_ChaincodeError UNKNOWN_FUNCTION (VObj [("fn", VStr fn)]))).

(** Unknown operations as the specification words them: every name
    outside the operations of the handler is answered with the
    UnknownFunction failure. *)
Definition unknown_function_as_specified (H : Host) (C : Handler) : Prop :=
  forall (fuel : nat) (stub : Stub) (st : State),
    ~ exposed_operation C (fcn stub) ->
    snd (Invoke H C fuel stub st) = Returned (unknown_function_failure H (fcn stub)).

(** Unresolved names as the specification words them: for every name
    outside the operations of the handler, none of the steps that follow
    the resolution is performed. *)
Definition unresolved_runs_nothing_as_specified (H : Host) (C : Handler) : Prop :=
  forall (fuel : nat) (stub : Stub) (st : State) (e : event),
    ~ exposed_operation C (fcn stub) ->
    e ∈ drop (length (trace st)) (trace (fst (Invoke H C fuel stub st))) ->
    dispatch_step e = false.

(** The response encoder as the specification words it: identity on byte
    sequences, the serialization for every other value that is neither
    null nor absent, the empty sequence for null and absent. *)
Definition encoder_as_specified (H : Host) : Prop :=
  forall (v tx : value),
    (isBuffer v = true -> prepareResponsePayload H v tx = Returned v) /\
    (isBuffer v = false -> v <> VNull -> v <> VUndefined ->
       forall s, JSON_stringify H (normalizePayload H v) = Some s ->
                 prepareResponsePayload H v tx = Returned (VBuffer (utf8 s))) /\
    (v = VNull \/ v = VUndefined ->
       prepareResponsePayload H v tx = Returned (VBuffer [])).

(** The lifecycle names as the specification words them: an invocation
    that names [Init] or [Invoke] never has that method called as its
    operation. *)
Definition lifecycle_names_unresolvable (H : Host) (C : Handler) : Prop :=
  forall (fuel : nat) (st : State) (stub : Stub) (m : method) (args : list value),
    trace st = [] ->
    (fcn stub = "Init" /\ m = BaseInit) \/ (fcn stub = "Invoke" /\ m = BaseInvoke) ->
    EvCall m args ∉ trace (fst (Invoke H C fuel stub st)).

(** A computation that only appends to the trace. *)
Definition monotone {A} (c : M A) : Prop :=
  forall st, trace st `prefix_of` trace (fst (c st)).

(** The state in which line 162 enters the migration executor. *)
Definition at_executor (path : value) (args : list value) (st : State) : State :=
  emit (EvExecutor path args) (set_migrating true st).

(** ** Further notions used below *)

(** Lines 136-144: the error the [catch] block reports, the thrown
    [ChaincodeError] itself or a wrapper of kind UnknownError around the
    message of anything else. *)
Definition as_ChaincodeError (H : Host) (err : exn) : ChaincodeError :=
  match err with
  | ChaincodeErr e => e
  | NativeErr _ _ =>
      new_ChaincodeError UNKNOWN_ERROR (VObj [("message", VStr (message_of H err))])
  end.

(** What [Invoke] calls when the operation it resolves is [Invoke]. *)
Definition Invoke_self (H : Host) (C : Handler) (fuel : nat) : Stub -> M value :=
  match fuel with
  | O => fun _ => diverge
  | S fuel' => Invoke H C fuel'
  end.

(** The state in which [getTransactionHelperFor] is entered (line 51). *)
Definition at_helper (C : Handler) (stub : Stub) (st : State) : State :=
  emit (EvGetTransactionHelper stub)
    (emit (EvParseParameters (params stub))
       (emit (EvLog Info (LInvoked (className C) (fcn stub) (txID stub))) st)).

(** The state after lines 117-127, in a process with a global [setup] and
    with the default transaction helper. *)
Definition after_setup (H : Host) (C : Handler) (stub : Stub) (st : State) : State :=
  set_global "setup"
    (VObj [("parsedParameters", VArr (map (decode_or_raw H) (params stub)));
           ("txHelper", VTxHelper stub)])
    (at_helper C stub st).

(** The state in which line 129 enters the method [m]. *)
Definition at_call (H : Host) (C : Handler) (stub : Stub) (m : method) (st : State)
  : State :=
  emit (EvCall m (map (decode_or_raw H) (params stub))) (after_setup H C stub st).

(** A handler with an operation that returns its arguments. *)
Definition echo_handler : Handler :=
  {| className := "EchoChaincode";
     migrationsPath := None;
     transactionHelperFor := None;
     operations := {[ "echo" := (fun _ _ args => ret (VArr args)) : operation ]};
     inherited_call := no_inherited_call |}.

(** A handler whose transaction helper cannot be built. *)
Definition helperless_handler : Handler :=
  {| className := "HelperlessChaincode";
     migrationsPath := None;
     transactionHelperFor :=
       Some (fun _ => throw (ChaincodeErr (new_ChaincodeError (OTHER_KIND "NO_HELPER") VNull)));
     operations := ∅;
     inherited_call := no_inherited_call |}.

(** An instance in a process where both [setup] and [ret] are globals. *)
Definition instance_with_globals : State :=
  mkState false {[ "setup" := VUndefined; "ret" := VObj [("fcn", VStr "other")] ]} [].

Definition echo_stub : Stub := mkStub "echo" ["123"; "not-json"] "tx-5".
Definition migrate_stub : Stub := mkStub "runMigrations" ["123"] "tx-6".
Definition name_stub : Stub := mkStub "name" [] "tx-7".
Definition path_stub : Stub := mkStub "migrationsPath" [] "tx-8".

(** ** Basic facts *)

Section Facts.

Variable H : Host.
Variable C : Handler.

Lemma Invoke_unfold (fuel : nat) (stub : Stub) :
  Invoke H C fuel stub =
  Invoke_body H C
    (match fuel with O => fun _ => diverge | S fuel' => Invoke H C fuel' end) stub.
Proof. destruct fuel; reflexivity. Qed.

Lemma member_emit (e : event) (st : State) (p : string) :
  member C (emit e st) p = member C st p.
Proof. reflexivity. Qed.

Lemma member_set_global (x : string) (v : value) (st : State) (p : string) :
  member C (set_global x v st) p = member C st p.
Proof. reflexivity. Qed.

Lemma forEach_push_decodes (params : list string) (acc : list value) :
  forEach_push H params acc = Returned (acc ++ map (decode_or_raw H) params)%list.
Proof.
  revert acc. induction params as [|param rest IH]; intros acc; simpl.
  - by rewrite app_nil_r.
  - unfold JSON_parse_call, decode_or_raw.
    destruct (JSON_parse H param) as [v|msg]; rewrite IH, <- app_assoc; reflexivity.
Qed.

Lemma parseParameters_map (params : list string) :
  parseParameters H params = Returned (map (decode_or_raw H) params).
Proof. unfold parseParameters. by rewrite forEach_push_decodes. Qed.

(** [setupInvoke] with the default transaction helper. *)
Lemma setupInvoke_default (stub : Stub) (raw : list string) (st : State) :
  transactionHelperFor C = None ->
  setupInvoke H C stub raw st =
    (emit (EvGetTransactionHelper stub) (emit (EvParseParameters raw) st),
     Returned (VObj [("parsedParameters", VArr (map (decode_or_raw H) raw));
                     ("txHelper", VTxHelper stub)])).
Proof.
  intros Hdef. unfold setupInvoke, getTransactionHelperFor, bind, tell, modify, lift, ret.
  rewrite parseParameters_map, Hdef. reflexivity.
Qed.

(** Lines 117-127 when no global [setup] exists: the store of line 120
    throws and the inner handler reclassifies the error. *)
Lemma setup_block_unbound (stub : Stub) (raw : list string) (st : State) :
  transactionHelperFor C = None ->
  globals st !! "setup" = None ->
  setup_block H C stub raw st =
    (emit (EvGetTransactionHelper stub) (emit (EvParseParameters raw) st),
     Thrown (ChaincodeErr (new_ChaincodeError PARSING_PARAMETERS_ERROR
               (VObj [("message", VStr "setup is not defined")])))).
Proof.
  intros Hdef Hno.
  unfold setup_block, try_catch, assign_setup, bind, get_state.
  rewrite setupInvoke_default by done.
  rewrite bool_decide_eq_false_2; [reflexivity|].
  simpl. rewrite Hno. by intros [? ?].
Qed.

(** Lines 117-127 when a global [setup] exists. *)
Lemma setup_block_bound (stub : Stub) (raw : list string) (st : State) :
  transactionHelperFor C = None ->
  is_Some (globals st !! "setup") ->
  setup_block H C stub raw st =
    (set_global "setup"
       (VObj [("parsedParameters", VArr (map (decode_or_raw H) raw));
              ("txHelper", VTxHelper stub)])
       (emit (EvGetTransactionHelper stub) (emit (EvParseParameters raw) st)),
     Returned (VArr (map (decode_or_raw H) raw), VTxHelper stub)).
Proof.
  intros Hdef Hyes.
  unfold setup_block, try_catch, assign_setup, bind, get_state.
  rewrite setupInvoke_default by done.
  rewrite bool_decide_eq_true_2 by done.
  unfold modify, read_global, set_global, lift, ret; simpl.
  rewrite lookup_insert_eq; simpl. rewrite lookup_insert_eq. reflexivity.
Qed.

(** The [catch] block when no global [ret] exists: two lines are logged and
    the template literal of line 147 throws. *)
Lemma Invoke_catch_unbound (stub : Stub) (err : exn) (st : State) :
  globals st !! "ret" = None ->
  Invoke_catch H C stub err st =
    (emit (EvLog Error (LErrorData (message_of H err) (JSON_stringify H (data_of err))))
       (emit (EvLog Error (LStack err)) st),
     Thrown (NativeErr "ReferenceError" "ret is not defined")).
Proof.
  intros Hno. unfold Invoke_catch, bind, tell, modify, read_global; simpl.
  rewrite Hno. reflexivity.
Qed.

End Facts.

(** ** Dispatch *)

Section Dispatch.

Variable H : Host.
Variable C : Handler.

(** The unknown-function branch (lines 109-115), for any continuation. *)
Lemma Invoke_body_reads_falsy (self : Stub -> M value) (stub : Stub) (st : State) :
  reads_falsy C st (fcn stub) ->
  Invoke_body H C self stub st =
    (emit (EvLog Error (LUnknownFunction (fcn stub)))
       (emit (EvLog Info (LInvoked (className C) (fcn stub) (txID stub))) st),
     Returned (unknown_function_failure H (fcn stub))).
Proof.
  intros (v & Hv & Hfalsy).
  unfold Invoke_body, try_catch, Invoke_try, bind, tell, modify, get_member.
  rewrite member_emit, Hv, Hfalsy. reflexivity.
Qed.

(** A name that resolves, in a process without globals [setup] and [ret]:
    the setup of the call fails on line 120 and the [catch] block fails on
    line 147, before any method is called. *)
Lemma Invoke_body_resolved_unbound (self : Stub -> M value) (stub : Stub)
    (st : State) (v : value) :
  member C st (fcn stub) = Returned v ->
  truthy v = true ->
  transactionHelperFor C = None ->
  globals st !! "setup" = None ->
  globals st !! "ret" = None ->
  let err := ChaincodeErr (new_ChaincodeError PARSING_PARAMETERS_ERROR
               (VObj [("message", VStr "setup is not defined")])) in
  Invoke_body H C self stub st =
    (emit (EvLog Error (LErrorData (message_of H err) (JSON_stringify H (data_of err))))
       (emit (EvLog Error (LStack err))
          (emit (EvGetTransactionHelper stub)
             (emit (EvParseParameters (params stub))
                (emit (EvLog Info (LInvoked (className C) (fcn stub) (txID stub))) st)))),
     Thrown (NativeErr "ReferenceError" "ret is not defined")).
Proof.
  intros Hv Htruthy Hdef Hsetup Hret err.
  unfold Invoke_body, try_catch, Invoke_try, bind, tell, modify, get_member.
  rewrite member_emit, Hv, Htruthy; cbv beta iota delta [negb].
  rewrite setup_block_unbound by done.
  by rewrite Invoke_catch_unbound.
Qed.

(** Whatever the [try] block throws, the [catch] block throws in turn when
    no global [ret] exists. *)
Lemma Invoke_body_failure_escapes (self : Stub -> M value) (stub : Stub)
    (st st' : State) (err : exn) :
  Invoke_try H C self stub st = (st', Thrown err) ->
  globals st' !! "ret" = None ->
  snd (Invoke_body H C self stub st) = Thrown (NativeErr "ReferenceError" "ret is not defined").
Proof.
  intros Htry Hret. unfold Invoke_body, try_catch. rewrite Htry.
  by rewrite Invoke_catch_unbound.
Qed.

End Dispatch.

(** ** Computations that only append to the trace *)

Create HintDb monotone.

Section Monotone.

Variable H : Host.
Variable C : Handler.

Lemma monotone_ret {A} (a : A) : monotone (ret a).
Proof. intros st. done. Qed.

Lemma monotone_throw {A} (err : exn) : monotone (@throw A err).
Proof. intros st. done. Qed.

Lemma monotone_diverge {A} : monotone (@diverge A).
Proof. intros st. done. Qed.

Lemma monotone_lift {A} (o : outcome A) : monotone (lift o).
Proof. intros st. done. Qed.

Lemma monotone_tell (e : event) : monotone (tell e).
Proof. intros st. by apply prefix_app_r. Qed.

Lemma monotone_read_global (x : string) : monotone (read_global x).
Proof. intros st. unfold read_global. by destruct (globals st !! x). Qed.

Lemma monotone_set_global (x : string) (v : value) :
  monotone (modify (set_global x v)).
Proof. intros st. done. Qed.

Lemma monotone_set_migrating (b : bool) : monotone (modify (set_migrating b)).
Proof. intros st. done. Qed.

Lemma monotone_get_member (p : string) : monotone (get_member C p).
Proof. intros st. done. Qed.

Lemma monotone_bind {A B} (c : M A) (k : A -> M B) :
  monotone c -> (forall a, monotone (k a)) -> monotone (bind c k).
Proof.
  intros Hc Hk st. unfold bind. specialize (Hc st).
  destruct (c st) as [st' [a| |]]; simpl in *; try done.
  etrans; [exact Hc | apply Hk].
Qed.

Lemma monotone_try_catch {A} (c : M A) (h : exn -> M A) :
  monotone c -> (forall err, monotone (h err)) -> monotone (try_catch c h).
Proof.
  intros Hc Hh st. unfold try_catch. specialize (Hc st).
  destruct (c st) as [st' [a|err|]]; simpl in *; try done.
  etrans; [exact Hc | apply Hh].
Qed.

Hint Resolve monotone_ret monotone_throw monotone_diverge monotone_lift
  monotone_tell monotone_read_global monotone_set_global monotone_set_migrating
  monotone_get_member : monotone.

Ltac monotone_steps :=
  repeat first
    [ apply monotone_bind; [| intros ?]
    | apply monotone_try_catch; [| intros ?]
    | solve [auto with monotone] ].

Lemma monotone_Init : monotone (Init H C).
Proof. unfold Init. monotone_steps. Qed.

Lemma monotone_Invoke_catch (stub : Stub) (err : exn) :
  monotone (Invoke_catch H C stub err).
Proof. unfold Invoke_catch. monotone_steps. Qed.

Lemma monotone_after_call (stub : Stub) (txHelper : value) (body : M value) :
  monotone body -> monotone (after_call H C stub txHelper body).
Proof. intros Hbody. unfold after_call. monotone_steps. Qed.

(** A resolved invocation in a process with a global [setup], up to the
    body of the method: four events, then the method and the rest. *)
Lemma Invoke_body_bound (self : Stub -> M value) (stub : Stub) (st : State)
    (m : method) :
  member C st (fcn stub) = Returned (VFun m) ->
  transactionHelperFor C = None ->
  is_Some (globals st !! "setup") ->
  let args := map (decode_or_raw H) (params stub) in
  let before :=
    emit (EvCall m args)
      (set_global "setup"
         (VObj [("parsedParameters", VArr args); ("txHelper", VTxHelper stub)])
         (emit (EvGetTransactionHelper stub)
            (emit (EvParseParameters (params stub))
               (emit (EvLog Info (LInvoked (className C) (fcn stub) (txID stub))) st)))) in
  let body :=
    match m with
    | UserOp p =>
        match operations C !! p with
        | Some op => op stub (VTxHelper stub) args
        | None => throw (NativeErr "TypeError" "method.call is not a function")
        end
    | BaseInit => Init H C
    | BaseInvoke => self stub
    | BaseRunMigrations => runMigrations H C stub (VTxHelper stub) args
    | BasePing => ping
    | Inherited p => inherited_call C p stub (VTxHelper stub) args
    end in
  Invoke_body H C self stub st =
    try_catch (after_call H C stub (VTxHelper stub) body) (Invoke_catch H C stub) before.
Proof.
  intros Hm Hdef Hsetup args before body.
  unfold Invoke_body, try_catch, Invoke_try, bind at 1 2, tell at 1, modify, get_member.
  rewrite member_emit, Hm; cbv beta iota delta [negb truthy].
  unfold bind at 1. rewrite setup_block_bound by done.
  reflexivity.
Qed.

End Monotone.

(** ** Argument coercion *)

(** C7: for every sequence of raw string arguments, [parseParameters]
    returns (it never raises) a sequence of the same length in the same
    order; each element is the JSON decode of the raw string at the same
    position when decoding succeeds, and that raw string when it fails. *)
Theorem parseParameters_decodes_each (H : Host) (params : list string) :
  exists out : list value,
    parseParameters H params = Returned out /\
    length out = length params /\
    forall (i : nat) (raw : string),
      params !! i = Some raw ->
      out !! i = Some (match JSON_parse H raw with
                       | inl v => v
                       | inr _ => VStr raw
                       end).
Proof.
  exists (map (decode_or_raw H) params).
  split; [apply parseParameters_map|]. split; [apply length_map|].
  intros i raw Hi.
  change (map (decode_or_raw H) params) with (decode_or_raw H <$> params).
  by rewrite list_lookup_fmap, Hi.
Qed.

(** The example of the specification. *)
Example parseParameters_sample :
  parseParameters (sample_host applying_executor) ["123"; quote "abc"; "not-json"]
  = Returned [VNum 123; VStr "abc"; VStr "not-json"].
Proof. reflexivity. Qed.

(** ** Response encoding *)

(** C10: for every value that is not a byte sequence and is falsy (the
    number 0, [false], the empty string, ...), [prepareResponsePayload]
    returns the empty byte sequence, whatever the serialization of the
    normalized value would have been. *)
Theorem prepareResponsePayload_falsy_is_empty (H : Host) (v tx : value) :
  isBuffer v = false ->
  truthy v = false ->
  prepareResponsePayload H v tx = Returned (VBuffer []).
Proof.
  intros Hbuf Hfalsy. unfold prepareResponsePayload. by rewrite Hbuf, Hfalsy.
Qed.

Lemma prepareResponsePayload_falsy_witness :
  prepareResponsePayload (sample_host applying_executor) (VNum 0) VUndefined
    = Returned (VBuffer []) /\
  prepareResponsePayload (sample_host applying_executor) (VBool false) VUndefined
    = Returned (VBuffer []) /\
  prepareResponsePayload (sample_host applying_executor) (VStr EmptyString) VUndefined
    = Returned (VBuffer []) /\
  JSON_stringify (sample_host applying_executor) (VNum 0) = Some "0".
Proof.
  split; [|split; [|split]].
  - apply (prepareResponsePayload_falsy_is_empty _ (VNum 0)); reflexivity.
  - apply (prepareResponsePayload_falsy_is_empty _ (VBool false)); reflexivity.
  - apply (prepareResponsePayload_falsy_is_empty _ (VStr EmptyString)); reflexivity.
  - reflexivity.
Defined.

(** C8, as stated, does not hold: the number 0 is present and is not a byte
    sequence, its serialization is the text 0, and the encoder returns the
    empty byte sequence. *)
Lemma encoder_as_specified_fails :
  ~ encoder_as_specified (sample_host applying_executor).
Proof.
  intros Hspec.
  destruct (Hspec (VNum 0) VUndefined) as (_ & Hpresent & _).
  specialize (Hpresent eq_refl ltac:(discriminate) ltac:(discriminate) "0" eq_refl).
  discriminate Hpresent.
Qed.

(** C8, amended: [prepareResponsePayload] is the identity on byte
    sequences; for a value that is not a byte sequence and is truthy it
    returns the UTF-8 text of the JSON serialization of the normalized
    value, when there is one; for a value that is not a byte sequence and is
    falsy (null, absent, [false], 0, NaN, the empty string) it returns the
    empty byte sequence. *)
Theorem prepareResponsePayload_cases (H : Host) (v tx : value) :
  (isBuffer v = true -> prepareResponsePayload H v tx = Returned v) /\
  (isBuffer v = false -> truthy v = true ->
     forall s, JSON_stringify H (normalizePayload H v) = Some s ->
               prepareResponsePayload H v tx = Returned (VBuffer (utf8 s))) /\
  (isBuffer v = false -> truthy v = false ->
     prepareResponsePayload H v tx = Returned (VBuffer [])).
Proof.
  unfold prepareResponsePayload. split; [|split].
  - by intros ->.
  - intros -> -> s ->. reflexivity.
  - intros -> ->. reflexivity.
Qed.

Lemma prepareResponsePayload_cases_witness :
  prepareResponsePayload (sample_host applying_executor) (VBuffer ["x"%byte]) VUndefined
    = Returned (VBuffer ["x"%byte]) /\
  prepareResponsePayload (sample_host applying_executor) (VNum 7) VUndefined
    = Returned (VBuffer (utf8 "7")) /\
  prepareResponsePayload (sample_host applying_executor) VNull VUndefined
    = Returned (VBuffer []).
Proof.
  split; [|split].
  - apply (proj1 (prepareResponsePayload_cases _ (VBuffer ["x"%byte]) VUndefined)).
    reflexivity.
  - apply (proj1 (proj2 (prepareResponsePayload_cases _ (VNum 7) VUndefined)));
      reflexivity.
  - apply (proj2 (proj2 (prepareResponsePayload_cases _ VNull VUndefined)));
      reflexivity.
Defined.

(** ** Unknown operations *)

Lemma assoc_own_fields_None (st : State) (p : string) :
  existsb (fun k => String.eqb k p) ["shim"; "migrating"; "logger"] = false ->
  assoc p (own_fields st) = None.
Proof.
  unfold assoc, own_fields. cbn [existsb find fst]. intros Hno.
  apply orb_false_elim in Hno as [Hshim Hno].
  apply orb_false_elim in Hno as [Hflag Hno].
  apply orb_false_elim in Hno as [Hlogger _].
  by rewrite Hshim, Hflag, Hlogger.
Qed.

(** A name that is no property of the instance reads as [undefined]. *)
Lemma no_property_reads_undefined (C : Handler) (st : State) (p : string) :
  has_property C p = false -> member C st p = Returned VUndefined.
Proof.
  unfold has_property. intros Hno.
  apply orb_false_elim in Hno as [Hno Hproto].
  apply orb_false_elim in Hno as [Hno Hbase].
  apply orb_false_elim in Hno as [Hno Hname].
  apply orb_false_elim in Hno as [Hno Hops].
  apply orb_false_elim in Hno as [Hown Hpath].
  apply bool_decide_eq_false, eq_None_not_Some in Hops.
  apply bool_decide_eq_false, eq_None_not_Some in Hbase.
  unfold member.
  by rewrite (assoc_own_fields_None st p Hown), Hpath, Hops, Hname, Hbase, Hproto.
Qed.

Lemma no_property_reads_falsy (C : Handler) (st : State) (p : string) :
  has_property C p = false -> reads_falsy C st p.
Proof.
  intros Hno. exists VUndefined. by rewrite no_property_reads_undefined.
Qed.

(** C6, as stated, does not hold: [name] is no operation of a handler, and
    an invocation that names it is not answered with the UnknownFunction
    failure. *)
Lemma unknown_function_as_specified_fails :
  ~ unknown_function_as_specified (sample_host applying_executor) plain_handler.
Proof.
  intros Hspec.
  specialize (Hspec 0 name_stub fresh_instance).
  assert (Hno : ~ exposed_operation plain_handler (fcn name_stub)).
  { intros [[op Hop]|[Hp|Hp]]; [|discriminate Hp|discriminate Hp].
    vm_compute in Hop. discriminate Hop. }
  specialize (Hspec Hno). vm_compute in Hspec. discriminate Hspec.
Qed.

(** C6, amended: for every operation name that is no property of the
    handler instance (no field, getter or method of that name on the
    instance, its class, the base class or [Object.prototype]), [Invoke]
    returns the failure result that carries the serialized [ChaincodeError]
    of kind UnknownFunction with data [{fn: name}]. *)
Theorem Invoke_reports_unknown_function (H : Host) (C : Handler) (fuel : nat)
    (stub : Stub) (st : State) :
  has_property C (fcn stub) = false ->
  snd (Invoke H C fuel stub st) =
    Returned (shim_error H (serialized H
      (new_ChaincodeError UNKNOWN_FUNCTION (VObj [("fn", VStr (fcn stub))])))).
Proof.
  intros Hno. rewrite Invoke_unfold, Invoke_body_reads_falsy; [reflexivity|].
  by apply no_property_reads_falsy.
Qed.

Lemma Invoke_reports_unknown_function_witness :
  has_property plain_handler "doesNotExist" = false /\
  snd (Invoke (sample_host applying_executor) plain_handler 0 missing_stub fresh_instance) =
    Returned (VObj [("status", VNum 500);
                    ("message",
                     VStr (default EmptyString
                             (sample_stringify
                                (VObj [("key", VStr "UNKNOWN_FUNCTION");
                                       ("data", VObj [("fn", VStr "doesNotExist")])]))))]).
Proof.
  split; [reflexivity|].
  exact (Invoke_reports_unknown_function (sample_host applying_executor) plain_handler 0
           missing_stub fresh_instance eq_refl).
Defined.

(** C9, as stated, does not hold: [name] is no operation of a handler, and
    an invocation that names it has its parameters parsed and a transaction
    helper built. *)
Lemma unresolved_runs_nothing_as_specified_fails :
  ~ unresolved_runs_nothing_as_specified (sample_host applying_executor) plain_handler.
Proof.
  intros Hspec.
  specialize (Hspec 0 name_stub fresh_instance (EvParseParameters [])).
  assert (Hno : ~ exposed_operation plain_handler (fcn name_stub)).
  { intros [[op Hop]|[Hp|Hp]]; [|discriminate Hp|discriminate Hp].
    vm_compute in Hop. discriminate Hop. }
  assert (Hstep : dispatch_step (EvParseParameters []) = false); [|discriminate Hstep].
  apply (Hspec Hno). vm_compute.
  apply list_elem_of_further, list_elem_of_here.
Qed.

(** C9, amended: for every invocation whose operation name is no property
    of the handler instance, the dispatch logs its two lines and does nothing
    else: no parameter is parsed, no transaction helper is built, no method
    and no migration executor is called, and the instance and the globals
    are left as they were. *)
Theorem Invoke_unknown_runs_nothing (H : Host) (C : Handler)
    (fuel : nat) (stub : Stub) (st : State) :
  has_property C (fcn stub) = false ->
  let st' := fst (Invoke H C fuel stub st) in
  exists evs : list event,
    trace st' = (trace st ++ evs)%list /\
    evs = [EvLog Info (LInvoked (className C) (fcn stub) (txID stub));
           EvLog Error (LUnknownFunction (fcn stub))] /\
    forallb (fun e => negb (dispatch_step e)) evs = true /\
    migrating st' = migrating st /\
    globals st' = globals st.
Proof.
  intros Hno st'. subst st'.
  rewrite Invoke_unfold, Invoke_body_reads_falsy by (by apply no_property_reads_falsy).
  eexists. split; [|split; [reflexivity|]].
  - simpl. by rewrite <- app_assoc.
  - done.
Qed.

Lemma Invoke_unknown_runs_nothing_witness :
  trace (fst (Invoke (sample_host applying_executor) plain_handler 0
                missing_stub fresh_instance)) =
    [EvLog Info (LInvoked "PlainChaincode" "doesNotExist" "tx-4");
     EvLog Error (LUnknownFunction "doesNotExist")].
Proof.
  destruct (Invoke_unknown_runs_nothing (sample_host applying_executor)
              plain_handler 0 missing_stub fresh_instance) as (evs & Htrace & -> & _).
  - reflexivity.
  - exact Htrace.
Defined.

(** ** Failures inside Invoke *)

(** C3, at the failing input: an invocation of an operation that resolves
    (here one that throws a plain error with message boom), with the default
    transaction helper and no globals [setup] and [ret].  [Invoke] does not
    return a failure result: a ReferenceError leaves it. *)
Theorem Invoke_lets_ReferenceError_escape (H : Host) (C : Handler)
    (fuel : nat) (stub : Stub) (st : State) (v : value) :
  member C st (fcn stub) = Returned v ->
  truthy v = true ->
  transactionHelperFor C = None ->
  globals st !! "setup" = None ->
  globals st !! "ret" = None ->
  snd (Invoke H C fuel stub st) =
    Thrown (NativeErr "ReferenceError" "ret is not defined").
Proof.
  intros Hv Htruthy Hdef Hsetup Hret.
  rewrite Invoke_unfold. by erewrite Invoke_body_resolved_unbound.
Qed.

Lemma Invoke_lets_ReferenceError_escape_witness :
  snd (Invoke (sample_host applying_executor) exploding_handler 1
         explode_stub fresh_instance) =
    Thrown (NativeErr "ReferenceError" "ret is not defined").
Proof.
  apply (Invoke_lets_ReferenceError_escape (sample_host applying_executor)
           exploding_handler 1 explode_stub fresh_instance
           (VFun (UserOp "explode"))); reflexivity.
Defined.

(** With a global [setup] the operation is reached and throws; the [catch]
    block wraps the error and then fails on [ret] all the same. *)
Example Invoke_explode_with_global_setup :
  let r := Invoke (sample_host applying_executor) exploding_handler 1
             explode_stub instance_with_global_setup in
  EvCall (UserOp "explode") [] ∈ trace (fst r) /\
  EvLog Error (LStack (NativeErr "Error" "boom")) ∈ trace (fst r) /\
  snd r = Thrown (NativeErr "ReferenceError" "ret is not defined").
Proof.
  vm_compute. split; [|split; [|reflexivity]].
  - do 3 apply list_elem_of_further. apply list_elem_of_here.
  - do 4 apply list_elem_of_further. apply list_elem_of_here.
Qed.

(** ** ping *)

(** C4, at the failing input: [ping] invoked with no arguments on a handler
    with the default transaction helper, in a process without globals
    [setup] and [ret].  [Invoke] returns no success result: it throws a
    ReferenceError, and [ping] is never called. *)
Theorem Invoke_ping_throws (H : Host) (C : Handler) (fuel : nat)
    (tx : string) (st : State) :
  operations C !! "ping" = None ->
  transactionHelperFor C = None ->
  globals st !! "setup" = None ->
  globals st !! "ret" = None ->
  let r := Invoke H C fuel (mkStub "ping" [] tx) st in
  snd r = Thrown (NativeErr "ReferenceError" "ret is not defined") /\
  forall args, EvCall BasePing args ∉ drop (length (trace st)) (trace (fst r)).
Proof.
  intros Hops Hdef Hsetup Hret r. subst r.
  rewrite Invoke_unfold.
  erewrite (Invoke_body_resolved_unbound H C _ (mkStub "ping" [] tx) st (VFun BasePing));
    try done.
  - split; [reflexivity|]. intros args. simpl.
    rewrite <- !app_assoc, drop_app_length. simpl.
    rewrite !not_elem_of_cons. repeat (split; [discriminate|]). apply not_elem_of_nil.
  - unfold member; simpl. by rewrite Hops.
Qed.

Lemma Invoke_ping_throws_witness :
  snd (Invoke (sample_host applying_executor) plain_handler 1 ping_stub fresh_instance)
    = Thrown (NativeErr "ReferenceError" "ret is not defined").
Proof.
  apply (Invoke_ping_throws (sample_host applying_executor) plain_handler 1
           "tx-1" fresh_instance); reflexivity.
Defined.

(** Where a global [setup] exists the call goes through: the payload is the
    UTF-8 text of the serialization of the normalized literal. *)
Lemma Invoke_ping_with_global_setup (H : Host) (C : Handler) (fuel : nat)
    (tx : string) (st : State) (s : string) :
  operations C !! "ping" = None ->
  transactionHelperFor C = None ->
  is_Some (globals st !! "setup") ->
  JSON_stringify H (normalizePayload H (VStr "pong")) = Some s ->
  snd (Invoke H C fuel (mkStub "ping" [] tx) st) =
    Returned (shim_success H (VBuffer (utf8 s))).
Proof.
  intros Hops Hdef Hsetup Hjson.
  rewrite Invoke_unfold.
  rewrite (Invoke_body_bound H C _ (mkStub "ping" [] tx) st BasePing); try done.
  - unfold try_catch, after_call, bind, ping, ret, lift, prepareResponsePayload; simpl.
    by rewrite Hjson.
  - unfold member; simpl. by rewrite Hops.
Qed.

Example Invoke_ping_sample_with_global_setup :
  snd (Invoke (sample_host applying_executor) plain_handler 1 ping_stub
         instance_with_global_setup) =
    Returned (shim_success (sample_host applying_executor)
                (VBuffer (utf8 (quote "pong")))).
Proof. by apply Invoke_ping_with_global_setup. Qed.

(** ** Lifecycle names *)

Section Lifecycle.

Variable H : Host.
Variable C : Handler.

Lemma member_Init (st : State) :
  operations C !! "Init" = None -> member C st "Init" = Returned (VFun BaseInit).
Proof. intros Hops. unfold member; simpl. by rewrite Hops. Qed.

Lemma member_Invoke (st : State) :
  operations C !! "Invoke" = None -> member C st "Invoke" = Returned (VFun BaseInvoke).
Proof. intros Hops. unfold member; simpl. by rewrite Hops. Qed.

Lemma member_lifecycle (st : State) (p : string) (m : method) :
  (p = "Init" /\ m = BaseInit) \/ (p = "Invoke" /\ m = BaseInvoke) ->
  operations C !! p = None ->
  member C st p = Returned (VFun m).
Proof.
  intros [[-> ->]|[-> ->]] Hops; [by apply member_Init | by apply member_Invoke].
Qed.

(** A resolved invocation in a process without a global [setup]: the
    [catch] block is entered after the setup of the call. *)
Lemma Invoke_body_unbound_setup (self : Stub -> M value) (stub : Stub)
    (st : State) (v : value) :
  member C st (fcn stub) = Returned v ->
  truthy v = true ->
  transactionHelperFor C = None ->
  globals st !! "setup" = None ->
  Invoke_body H C self stub st =
    Invoke_catch H C stub
      (ChaincodeErr (new_ChaincodeError PARSING_PARAMETERS_ERROR
         (VObj [("message", VStr "setup is not defined")])))
      (emit (EvGetTransactionHelper stub)
         (emit (EvParseParameters (params stub))
            (emit (EvLog Info (LInvoked (className C) (fcn stub) (txID stub))) st))).
Proof.
  intros Hv Htruthy Hdef Hsetup.
  unfold Invoke_body, try_catch, Invoke_try, bind, tell, modify, get_member.
  rewrite member_emit, Hv, Htruthy; cbv beta iota delta [negb].
  by rewrite setup_block_unbound.
Qed.

(** An invocation that names [Init] or [Invoke] only appends to the
    trace, however deep the dispatcher re-enters itself. *)
Lemma monotone_Invoke_lifecycle (fuel : nat) (stub : Stub) (m : method) :
  (fcn stub = "Init" /\ m = BaseInit) \/ (fcn stub = "Invoke" /\ m = BaseInvoke) ->
  operations C !! fcn stub = None ->
  transactionHelperFor C = None ->
  monotone (Invoke H C fuel stub).
Proof.
  intros Hname Hops Hdef.
  induction fuel as [|fuel IH]; intros st; rewrite Invoke_unfold.
  all: pose proof (member_lifecycle st _ _ Hname Hops) as Hm.
  all: destruct (globals st !! "setup") as [old|] eqn:Hsetup.
  all: try (rewrite (Invoke_body_bound H C _ stub st m) by (by rewrite ?Hsetup);
            etrans; [| apply monotone_try_catch;
                       [apply monotone_after_call | intros ?; apply monotone_Invoke_catch]];
            [ simpl; rewrite <- !app_assoc; by apply prefix_app_r |];
            destruct Hname as [[_ ->]|[_ ->]];
            [ apply monotone_Init | first [exact IH | intros ?; done] ]).
  all: rewrite (Invoke_body_unbound_setup _ stub st (VFun m)) by done.
  all: etrans; [| apply monotone_Invoke_catch].
  all: simpl; rewrite <- !app_assoc; by apply prefix_app_r.
Qed.

End Lifecycle.

(** C5, as stated, does not hold: in a process with a global [setup], an
    invocation that names [Init] has [Init] called as its operation. *)
Lemma lifecycle_names_are_resolved :
  ~ lifecycle_names_unresolvable (sample_host applying_executor) plain_handler.
Proof.
  intros Hspec.
  apply (Hspec 1 instance_with_global_setup init_stub BaseInit [] eq_refl).
  - left. done.
  - vm_compute. do 3 apply list_elem_of_further. apply list_elem_of_here.
Qed.

(** C5, amended: [Init] and [Invoke] are resolved by the property lookup
    of line 108 like every other method.  Unless the handler class
    overrides the name, the lookup yields the lifecycle method itself; the
    invocation goes on to parse its parameters; and where the setup of the
    call completes (a global [setup] exists) the lifecycle method is called
    as the operation, with the parsed parameters. *)
Theorem Invoke_resolves_lifecycle_names (H : Host) (C : Handler) (fuel : nat)
    (st : State) (stub : Stub) (m : method) :
  (fcn stub = "Init" /\ m = BaseInit) \/ (fcn stub = "Invoke" /\ m = BaseInvoke) ->
  operations C !! fcn stub = None ->
  transactionHelperFor C = None ->
  let st' := fst (Invoke H C fuel stub st) in
  member C st (fcn stub) = Returned (VFun m) /\
  EvParseParameters (params stub) ∈ trace st' /\
  (is_Some (globals st !! "setup") ->
   EvCall m (map (decode_or_raw H) (params stub)) ∈ trace st').
Proof.
  intros Hname Hops Hdef st'. subst st'.
  pose proof (member_lifecycle C st _ _ Hname Hops) as Hm.
  split; [exact Hm|].
  assert (Hself : monotone
            (match fuel with O => fun _ => diverge | S fuel' => Invoke H C fuel' end stub)).
  { destruct fuel; [intros ?; done | by eapply monotone_Invoke_lifecycle]. }
  rewrite Invoke_unfold.
  assert (Hbound : is_Some (globals st !! "setup") ->
            EvParseParameters (params stub) ∈
              trace (fst (Invoke_body H C
                 (match fuel with O => fun _ => diverge | S fuel' => Invoke H C fuel' end)
                 stub st)) /\
            EvCall m (map (decode_or_raw H) (params stub)) ∈
              trace (fst (Invoke_body H C
                 (match fuel with O => fun _ => diverge | S fuel' => Invoke H C fuel' end)
                 stub st))).
  { intros Hsetup.
    rewrite (Invoke_body_bound H C _ stub st m) by done.
    split.
    all: eapply elem_of_prefix;
      [| apply monotone_try_catch;
         [apply monotone_after_call | intros ?; apply monotone_Invoke_catch];
         destruct Hname as [[_ ->]|[_ ->]]; [apply monotone_Init | exact Hself] ].
    all: simpl; rewrite !elem_of_app, !elem_of_cons; tauto. }
  split; [|intros Hsetup; by apply Hbound].
  destruct (globals st !! "setup") as [old|] eqn:Hsetup.
  - by apply Hbound.
  - rewrite (Invoke_body_unbound_setup H C _ stub st (VFun m)) by done.
    eapply elem_of_prefix; [| apply monotone_Invoke_catch].
    simpl; rewrite !elem_of_app, !elem_of_cons; tauto.
Qed.

Lemma Invoke_resolves_lifecycle_names_witness :
  member plain_handler instance_with_global_setup "Init" = Returned (VFun BaseInit) /\
  EvCall BaseInit [] ∈
    trace (fst (Invoke (sample_host applying_executor) plain_handler 1 init_stub
                  instance_with_global_setup)).
Proof.
  destruct (Invoke_resolves_lifecycle_names (sample_host applying_executor)
              plain_handler 1 instance_with_global_setup init_stub BaseInit)
    as (Hm & _ & Hcall).
  - left. split; reflexivity.
  - reflexivity.
  - reflexivity.
  - split; [exact Hm|]. apply Hcall. exists VUndefined. reflexivity.
Defined.

(** ** Migrations *)

Section Migrations.

Variable H : Host.
Variable C : Handler.

(** Where the executor returns, the flag is false afterwards. *)
Lemma runMigrations_success (stub : Stub) (tx path : value) (args : list value)
    (st st' : State) (result : value) :
  migrationsPath C = Some path ->
  migrations_runMigrations H path stub tx args (at_executor path args st)
    = (st', Returned result) ->
  runMigrations H C stub tx args st = (set_migrating false st', Returned result).
Proof.
  intros Hpath Hrun.
  unfold runMigrations, bind, modify, lift, tell, get_migrationsPath; simpl.
  rewrite Hpath. fold (at_executor path args st). by rewrite Hrun.
Qed.

(** Where the executor throws, line 163 is skipped: the instance is left as
    the executor left it. *)
Lemma runMigrations_failure (stub : Stub) (tx path : value) (args : list value)
    (st st' : State) (err : exn) :
  migrationsPath C = Some path ->
  migrations_runMigrations H path stub tx args (at_executor path args st)
    = (st', Thrown err) ->
  runMigrations H C stub tx args st = (st', Thrown err).
Proof.
  intros Hpath Hrun.
  unfold runMigrations, bind, modify, lift, tell, get_migrationsPath; simpl.
  rewrite Hpath. fold (at_executor path args st). by rewrite Hrun.
Qed.

End Migrations.

(** C1, at the failing input: a handler with a migrations path whose
    executor throws on a fresh instance.  The error is re-raised and the
    flag [migrating] is left true. *)
Theorem runMigrations_leaves_flag_set_when_executor_throws :
  let r := runMigrations (sample_host failing_executor) migrating_handler
             ping_stub VUndefined [] fresh_instance in
  migrating fresh_instance = false /\
  snd r = Thrown (NativeErr "Error" "boom") /\
  migrating (fst r) = true.
Proof.
  cbv zeta.
  rewrite (runMigrations_failure (sample_host failing_executor) migrating_handler
             ping_stub VUndefined (VStr "./migrations") [] fresh_instance
             (at_executor (VStr "./migrations") [] fresh_instance)
             (NativeErr "Error" "boom") eq_refl eq_refl).
  done.
Qed.

(** On the same instance an executor that returns leaves the flag false. *)
Example runMigrations_clears_flag_on_success :
  let r := runMigrations (sample_host applying_executor) migrating_handler
             ping_stub VUndefined [] fresh_instance in
  snd r = Returned (VStr "applied") /\ migrating (fst r) = false.
Proof.
  cbv zeta.
  rewrite (runMigrations_success (sample_host applying_executor) migrating_handler
             ping_stub VUndefined (VStr "./migrations") [] fresh_instance
             (at_executor (VStr "./migrations") [] fresh_instance)
             (VStr "applied") eq_refl eq_refl).
  done.
Qed.

(** C2, at the failing input: on a handler with no migrations path,
    [runMigrations] fails with MigrationPathNotDefined and the executor is
    not entered, but the flag [migrating] has been set and stays true. *)
Theorem runMigrations_without_path (H : Host) (C : Handler) (stub : Stub)
    (tx : value) (args : list value) (st : State) :
  migrationsPath C = None ->
  let r := runMigrations H C stub tx args st in
  snd r = Thrown (ChaincodeErr (new_ChaincodeError MIGRATION_PATH_NOT_DEFINED VUndefined)) /\
  fst r = set_migrating true st /\
  trace (fst r) = trace st /\
  migrating (fst r) = true.
Proof.
  intros Hpath r. subst r.
  unfold runMigrations, bind, modify, lift, get_migrationsPath; simpl.
  by rewrite Hpath.
Qed.

Lemma runMigrations_without_path_witness :
  migrating fresh_instance = false /\
  migrating (fst (runMigrations (sample_host applying_executor) plain_handler
                    ping_stub VUndefined [] fresh_instance)) = true.
Proof.
  split; [reflexivity|].
  apply (runMigrations_without_path (sample_host applying_executor) plain_handler
           ping_stub VUndefined [] fresh_instance eq_refl).
Defined.

(** ** Further properties of the migration runner *)

(** X1: where a migrations path is configured and the executor returns,
    the executor was entered with the flag [migrating] true and with the
    configured path, its result is returned unchanged, and the flag is false
    afterwards, whatever it was before the call and whatever the executor
    did to it. *)
Theorem runMigrations_returns_executor_result (H : Host) (C : Handler)
    (stub : Stub) (tx path : value) (args : list value) (st st' : State)
    (result : value) :
  migrationsPath C = Some path ->
  migrations_runMigrations H path stub tx args (at_executor path args st)
    = (st', Returned result) ->
  let r := runMigrations H C stub tx args st in
  migrating (at_executor path args st) = true /\
  snd r = Returned result /\
  migrating (fst r) = false /\
  globals (fst r) = globals st' /\
  trace (fst r) = trace st'.
Proof.
  intros Hpath Hrun r. subst r.
  unfold runMigrations, bind, modify, lift, tell, get_migrationsPath; simpl.
  rewrite Hpath. fold (at_executor path args st). by rewrite Hrun.
Qed.

Lemma runMigrations_returns_executor_result_witness :
  let r := runMigrations (sample_host applying_executor) migrating_handler
             ping_stub VUndefined [VNum 1] (set_migrating true fresh_instance) in
  snd r = Returned (VStr "applied") /\ migrating (fst r) = false.
Proof.
  destruct (runMigrations_returns_executor_result (sample_host applying_executor)
              migrating_handler ping_stub VUndefined (VStr "./migrations") [VNum 1]
              (set_migrating true fresh_instance)
              (at_executor (VStr "./migrations") [VNum 1] (set_migrating true fresh_instance))
              (VStr "applied") eq_refl eq_refl) as (_ & Hres & Hflag & _).
  split; [exact Hres | exact Hflag].
Defined.

(** X2: where the executor throws, [runMigrations] throws the very same
    error, not wrapped into a [ChaincodeError], and leaves the instance
    exactly as the executor left it: the flag is not reset. *)
Theorem runMigrations_rethrows_executor_error (H : Host) (C : Handler)
    (stub : Stub) (tx path : value) (args : list value) (st st' : State)
    (err : exn) :
  migrationsPath C = Some path ->
  migrations_runMigrations H path stub tx args (at_executor path args st)
    = (st', Thrown err) ->
  let r := runMigrations H C stub tx args st in
  snd r = Thrown err /\ fst r = st'.
Proof.
  intros Hpath Hrun r. subst r.
  unfold runMigrations, bind, modify, lift, tell, get_migrationsPath; simpl.
  rewrite Hpath. fold (at_executor path args st). by rewrite Hrun.
Qed.

Lemma runMigrations_rethrows_executor_error_witness :
  let r := runMigrations (sample_host failing_executor) migrating_handler
             ping_stub VUndefined [] fresh_instance in
  snd r = Thrown (NativeErr "Error" "boom") /\
  fst r = at_executor (VStr "./migrations") [] fresh_instance.
Proof.
  exact (runMigrations_rethrows_executor_error (sample_host failing_executor)
           migrating_handler ping_stub VUndefined (VStr "./migrations") []
           fresh_instance (at_executor (VStr "./migrations") [] fresh_instance)
           (NativeErr "Error" "boom") eq_refl eq_refl).
Defined.

(** ** Further properties of the argument coercion *)

(** X3: arguments that are no JSON texts, the regular strings of the
    comment on line 68, come back unchanged, as strings. *)
Theorem parseParameters_keeps_plain_strings (H : Host) (params : list string) :
  (forall raw, raw ∈ params -> exists msg, JSON_parse H raw = inr msg) ->
  parseParameters H params = Returned (map VStr params).
Proof.
  intros Hplain. rewrite parseParameters_map. f_equal.
  induction params as [|raw rest IH]; [reflexivity|]. simpl.
  rewrite IH.
  - destruct (Hplain raw) as [msg Hmsg]; [apply list_elem_of_here|].
    unfold decode_or_raw. by rewrite Hmsg.
  - intros raw' Hin. apply Hplain. by apply list_elem_of_further.
Qed.

Lemma parseParameters_keeps_plain_strings_witness :
  parseParameters (sample_host applying_executor) ["alice"; "not-json"]
    = Returned [VStr "alice"; VStr "not-json"].
Proof.
  apply (parseParameters_keeps_plain_strings (sample_host applying_executor)
           ["alice"; "not-json"]).
  intros raw Hin.
  apply elem_of_cons in Hin as [->|Hin]; [eexists; reflexivity|].
  apply elem_of_cons in Hin as [->|Hin]; [eexists; reflexivity|].
  by apply elem_of_nil in Hin.
Defined.

(** X4: parsing is positional: the parse of a concatenation is the
    concatenation of the parses, so no argument influences another. *)
Theorem parseParameters_app (H : Host) (front back : list string) :
  exists out1 out2 : list value,
    parseParameters H front = Returned out1 /\
    parseParameters H back = Returned out2 /\
    parseParameters H (front ++ back) = Returned (out1 ++ out2)%list.
Proof.
  exists (map (decode_or_raw H) front), (map (decode_or_raw H) back).
  rewrite !parseParameters_map, map_app. done.
Qed.

(** ** Further properties of the response encoder *)

(** X5: whatever [prepareResponsePayload] returns is a byte sequence, and
    encoding it again changes nothing. *)
Theorem prepareResponsePayload_returns_buffer (H : Host) (v tx out : value) :
  prepareResponsePayload H v tx = Returned out ->
  isBuffer out = true /\
  forall tx', prepareResponsePayload H out tx' = Returned out.
Proof.
  unfold prepareResponsePayload, Buffer_from. intros Hout.
  assert (Hbuf : isBuffer out = true).
  { destruct (isBuffer v) eqn:Hv; simpl in Hout.
    - by inversion Hout; subst.
    - destruct (truthy v); [destruct (JSON_stringify H (normalizePayload H v))|];
        by inversion Hout. }
  split; [exact Hbuf|]. intros tx'. by rewrite Hbuf.
Qed.

Lemma prepareResponsePayload_returns_buffer_witness :
  isBuffer (VBuffer (utf8 (quote "pong"))) = true /\
  prepareResponsePayload (sample_host applying_executor)
    (VBuffer (utf8 (quote "pong"))) VNull = Returned (VBuffer (utf8 (quote "pong"))).
Proof.
  destruct (prepareResponsePayload_returns_buffer (sample_host applying_executor)
              (VStr "pong") VUndefined (VBuffer (utf8 (quote "pong"))) eq_refl)
    as [Hbuf Hagain].
  split; [exact Hbuf | exact (Hagain VNull)].
Defined.

(** ** Further properties of the dispatcher *)

Section DispatchPaths.

Variable H : Host.
Variable C : Handler.

Lemma Invoke_unfold_self (fuel : nat) (stub : Stub) :
  Invoke H C fuel stub = Invoke_body H C (Invoke_self H C fuel) stub.
Proof. apply Invoke_unfold. Qed.


End DispatchPaths.

(** X7: where building the transaction helper throws, no operation is
    called: the [catch] block of [Invoke] is entered, in the state the
    factory left, with an error of kind ParsingParametersError that keeps
    the message of the original error and nothing else of it. *)
Theorem Invoke_reclassifies_helper_failure (H : Host) (C : Handler) (fuel : nat)
    (stub : Stub) (st st' : State) (v : value) (make : Stub -> M value) (err : exn) :
  member C st (fcn stub) = Returned v ->
  truthy v = true ->
  transactionHelperFor C = Some make ->
  make stub (at_helper C stub st) = (st', Thrown err) ->
  Invoke H C fuel stub st =
    Invoke_catch H C stub
      (ChaincodeErr (new_ChaincodeError PARSING_PARAMETERS_ERROR
         (VObj [("message", VStr (message_of H err))])))
      st'.
Proof.
  intros Hv Htruthy Hmake Hthrow.
  rewrite Invoke_unfold_self.
  unfold Invoke_body, try_catch, Invoke_try, bind at 1 2, tell at 1, modify, get_member.
  rewrite member_emit, Hv, Htruthy; cbv beta iota delta [negb].
  unfold bind at 1, setup_block, try_catch, assign_setup, bind at 1 2, get_state.
  unfold setupInvoke, getTransactionHelperFor, bind, tell, modify, lift.
  rewrite parseParameters_map, Hmake.
  unfold at_helper in Hthrow. unfold name. by rewrite Hthrow.
Qed.

Lemma Invoke_reclassifies_helper_failure_witness :
  Invoke (sample_host applying_executor) helperless_handler 1 ping_stub fresh_instance =
    Invoke_catch (sample_host applying_executor) helperless_handler ping_stub
      (ChaincodeErr (new_ChaincodeError PARSING_PARAMETERS_ERROR
         (VObj [("message", VStr "NO_HELPER")])))
      (at_helper helperless_handler ping_stub fresh_instance).
Proof.
  exact (Invoke_reclassifies_helper_failure (sample_host applying_executor)
           helperless_handler 1 ping_stub fresh_instance
           (at_helper helperless_handler ping_stub fresh_instance)
           (VFun BasePing) _
           (ChaincodeErr (new_ChaincodeError (OTHER_KIND "NO_HELPER") VNull))
           eq_refl eq_refl eq_refl eq_refl).
Defined.

(** X8: in a process with a global [setup], an operation of the handler
    is called once, with the stub, the default transaction helper and the
    parsed parameters; what it returns is encoded by
    [prepareResponsePayload] and handed to [shim.success], and the only line
    logged after the operation is the completion line. *)
Theorem Invoke_returns_encoded_result (H : Host) (C : Handler) (fuel : nat)
    (stub : Stub) (st st1 : State) (op : operation) (payload bytes : value) :
  member C st (fcn stub) = Returned (VFun (UserOp (fcn stub))) ->
  operations C !! fcn stub = Some op ->
  transactionHelperFor C = None ->
  is_Some (globals st !! "setup") ->
  op stub (VTxHelper stub) (map (decode_or_raw H) (params stub))
     (at_call H C stub (UserOp (fcn stub)) st) = (st1, Returned payload) ->
  prepareResponsePayload H payload (VTxHelper stub) = Returned bytes ->
  Invoke H C fuel stub st =
    (emit (EvLog Info (LComplete (className C) (fcn stub) (txID stub))) st1,
     Returned (shim_success H bytes)).
Proof.
  intros Hm Hop Hdef Hsetup Hrun Henc.
  rewrite Invoke_unfold_self, (Invoke_body_bound H C _ stub st _ Hm) by done.
  cbv beta iota zeta.
  change (@lookup string (Stub -> value -> list value -> M value))
    with (@lookup string operation).
  rewrite Hop. unfold try_catch, after_call, bind.
  unfold at_call, after_setup, at_helper in Hrun. rewrite Hrun.
  unfold lift. by rewrite Henc.
Qed.

Lemma Invoke_returns_encoded_result_witness :
  snd (Invoke (sample_host applying_executor) echo_handler 1 echo_stub
         instance_with_global_setup) =
    Returned (shim_success (sample_host applying_executor)
                (VBuffer (utf8 ("[123," ++ quote "not-json" ++ "]")))).
Proof.
  erewrite (Invoke_returns_encoded_result (sample_host applying_executor)
              echo_handler 1 echo_stub instance_with_global_setup).
  - reflexivity.
  - reflexivity.
  - reflexivity.
  - reflexivity.
  - exists VUndefined. reflexivity.
  - reflexivity.
  - reflexivity.
Defined.

(** X9: migrations are run through the dispatcher like any operation.  In
    a process with a global [setup], an invocation that names
    [runMigrations] hands the parsed parameters to the executor as its
    argument list, with the flag [migrating] true; when the executor returns,
    its result is encoded into the success result and the flag is false
    again. *)
Theorem Invoke_runs_migrations (H : Host) (C : Handler) (fuel : nat)
    (stub : Stub) (st st1 : State) (path result bytes : value) :
  fcn stub = "runMigrations" ->
  operations C !! "runMigrations" = None ->
  transactionHelperFor C = None ->
  is_Some (globals st !! "setup") ->
  migrationsPath C = Some path ->
  migrations_runMigrations H path stub (VTxHelper stub)
    (map (decode_or_raw H) (params stub))
    (at_executor path (map (decode_or_raw H) (params stub))
       (at_call H C stub BaseRunMigrations st)) = (st1, Returned result) ->
  prepareResponsePayload H result (VTxHelper stub) = Returned bytes ->
  migrating (at_executor path (map (decode_or_raw H) (params stub))
               (at_call H C stub BaseRunMigrations st)) = true /\
  Invoke H C fuel stub st =
    (emit (EvLog Info (LComplete (className C) (fcn stub) (txID stub)))
       (set_migrating false st1),
     Returned (shim_success H bytes)).
Proof.
  intros Hname Hops Hdef Hsetup Hpath Hrun Henc. split; [reflexivity|].
  assert (Hm : member C st (fcn stub) = Returned (VFun BaseRunMigrations)).
  { rewrite Hname. unfold member; simpl. by rewrite Hops. }
  rewrite Invoke_unfold_self, (Invoke_body_bound H C _ stub st _ Hm) by done.
  cbv beta iota zeta. unfold try_catch, after_call, bind at 1.
  erewrite runMigrations_success; [| exact Hpath | exact Hrun].
  unfold bind, lift. by rewrite Henc.
Qed.

Lemma Invoke_runs_migrations_witness :
  let r := Invoke (sample_host applying_executor) migrating_handler 1 migrate_stub
             (set_migrating true instance_with_global_setup) in
  snd r = Returned (shim_success (sample_host applying_executor)
                      (VBuffer (utf8 (quote "applied")))) /\
  migrating (fst r) = false /\
  EvExecutor (VStr "./migrations") [VNum 123] ∈ trace (fst r).
Proof.
  cbv zeta.
  destruct (Invoke_runs_migrations (sample_host applying_executor) migrating_handler 1
              migrate_stub (set_migrating true instance_with_global_setup)
              (at_executor (VStr "./migrations") [VNum 123]
                 (at_call (sample_host applying_executor) migrating_handler migrate_stub
                    BaseRunMigrations (set_migrating true instance_with_global_setup)))
              (VStr "./migrations") (VStr "applied") (VBuffer (utf8 (quote "applied"))))
    as [_ Hrun]; try reflexivity.
  - exists VUndefined. reflexivity.
  - rewrite Hrun. split; [reflexivity | split; [reflexivity|]].
    simpl. do 4 apply list_elem_of_further. apply list_elem_of_here.
Defined.

(** X10: a failure inside the [try] block of [Invoke] never becomes a
    success result: [Invoke] then either throws or returns the failure
    result built from the error, a thrown [ChaincodeError] as it is and any
    other error wrapped as UnknownError around its message. *)
Theorem Invoke_failure_is_never_success (H : Host) (C : Handler) (fuel : nat)
    (stub : Stub) (st st' : State) (err : exn) :
  Invoke_try H C (Invoke_self H C fuel) stub st = (st', Thrown err) ->
  (exists err', snd (Invoke H C fuel stub st) = Thrown err') \/
  snd (Invoke H C fuel stub st) =
    Returned (shim_error H (serialized H (as_ChaincodeError H err))).
Proof.
  intros Htry. rewrite Invoke_unfold_self. unfold Invoke_body, try_catch.
  rewrite Htry. unfold Invoke_catch, bind, tell, modify, read_global, lift; simpl.
  destruct (globals st' !! "ret") as [r|]; [|left; by eexists].
  destruct (get_field r "fcn") as [f|err'|] eqn:Hfield; simpl.
  - right. by destruct err.
  - left. by eexists.
  - exfalso. unfold get_field in Hfield.
    destruct r; try discriminate. destruct (find _ _); discriminate.
Qed.

Lemma Invoke_failure_is_never_success_witness :
  (exists err',
     snd (Invoke (sample_host applying_executor) exploding_handler 1 explode_stub
            instance_with_globals) = Thrown err') \/
  snd (Invoke (sample_host applying_executor) exploding_handler 1 explode_stub
         instance_with_globals) =
    Returned (shim_error (sample_host applying_executor)
                (serialized (sample_host applying_executor)
                   (new_ChaincodeError UNKNOWN_ERROR (VObj [("message", VStr "boom")])))).
Proof.
  eapply (Invoke_failure_is_never_success (sample_host applying_executor)
            exploding_handler 1 explode_stub instance_with_globals _
            (NativeErr "Error" "boom")).
  vm_compute. reflexivity.
Defined.

(** X11: in a process where [setup] and [ret] are globals, an operation
    that throws makes [Invoke] return a failure result: a [ChaincodeError]
    is reported as it is, any other error as UnknownError around its
    message; three lines are logged, the last of which names the [fcn] of the
    global [ret], not the operation invoked. *)
Theorem Invoke_reports_thrown_error (H : Host) (C : Handler) (fuel : nat)
    (stub : Stub) (st st1 : State) (op : operation) (err : exn) (r f : value) :
  member C st (fcn stub) = Returned (VFun (UserOp (fcn stub))) ->
  operations C !! fcn stub = Some op ->
  transactionHelperFor C = None ->
  is_Some (globals st !! "setup") ->
  op stub (VTxHelper stub) (map (decode_or_raw H) (params stub))
     (at_call H C stub (UserOp (fcn stub)) st) = (st1, Thrown err) ->
  globals st1 !! "ret" = Some r ->
  get_field r "fcn" = Returned f ->
  Invoke H C fuel stub st =
    (emit (EvLog Error (LFailed (className C) f (txID stub)))
       (emit (EvLog Error (LErrorData (message_of H err) (JSON_stringify H (data_of err))))
          (emit (EvLog Error (LStack err)) st1)),
     Returned (shim_error H (serialized H (as_ChaincodeError H err)))).
Proof.
  intros Hm Hop Hdef Hsetup Hrun Hret Hfield.
  rewrite Invoke_unfold_self, (Invoke_body_bound H C _ stub st _ Hm) by done.
  cbv beta iota zeta.
  change (@lookup string (Stub -> value -> list value -> M value))
    with (@lookup string operation).
  rewrite Hop. unfold try_catch, after_call, bind at 1.
  unfold at_call, after_setup, at_helper in Hrun. rewrite Hrun.
  unfold Invoke_catch, bind, tell, modify, read_global, lift; simpl.
  rewrite Hret, Hfield. by destruct err.
Qed.

Lemma Invoke_reports_thrown_error_witness :
  let r := Invoke (sample_host applying_executor) exploding_handler 1 explode_stub
             instance_with_globals in
  snd r = Returned (shim_error (sample_host applying_executor)
                      (serialized (sample_host applying_executor)
                         (new_ChaincodeError UNKNOWN_ERROR
                            (VObj [("message", VStr "boom")])))) /\
  last (trace (fst r)) =
    Some (EvLog Error (LFailed "ExplodingChaincode" (VStr "other") "tx-3")).
Proof.
  cbv zeta.
  rewrite (Invoke_reports_thrown_error (sample_host applying_executor)
             exploding_handler 1 explode_stub instance_with_globals
             (at_call (sample_host applying_executor) exploding_handler explode_stub
                (UserOp "explode") instance_with_globals)
             (fun _ _ _ => throw (NativeErr "Error" "boom"))
             (NativeErr "Error" "boom") (VObj [("fcn", VStr "other")]) (VStr "other")).
  - split; reflexivity.
  - reflexivity.
  - reflexivity.
  - reflexivity.
  - exists VUndefined. reflexivity.
  - reflexivity.
  - reflexivity.
  - reflexivity.
Defined.



(** X13: an invocation that names [migrationsPath] on a handler without a
    migrations path is not reported as an unknown function either: reading
    the member runs the getter of lines 31-34, and the [catch] block is
    entered with MigrationPathNotDefined right after the first log line,
    before any parameter is parsed. *)
Theorem Invoke_of_migrationsPath (H : Host) (C : Handler) (fuel : nat)
    (stub : Stub) (st : State) :
  fcn stub = "migrationsPath" ->
  migrationsPath C = None ->
  Invoke H C fuel stub st =
    Invoke_catch H C stub
      (ChaincodeErr (new_ChaincodeError MIGRATION_PATH_NOT_DEFINED VUndefined))
      (emit (EvLog Info (LInvoked (className C) (fcn stub) (txID stub))) st).
Proof.
  intros Hname Hpath.
  rewrite Invoke_unfold_self.
  unfold Invoke_body, try_catch, Invoke_try, bind, tell, modify, get_member.
  rewrite member_emit, Hname. unfold member, get_migrationsPath; simpl.
  by rewrite Hpath.
Qed.

Lemma Invoke_of_migrationsPath_witness :
  Invoke (sample_host applying_executor) plain_handler 0 path_stub fresh_instance =
    (mkState false ∅
       [EvLog Info (LInvoked "PlainChaincode" "migrationsPath" "tx-8");
        EvLog Error (LStack (ChaincodeErr
                               (new_ChaincodeError MIGRATION_PATH_NOT_DEFINED VUndefined)));
        EvLog Error (LErrorData "MIGRATION_PATH_NOT_DEFINED" None)],
     Thrown (NativeErr "ReferenceError" "ret is not defined")).
Proof.
  rewrite (Invoke_of_migrationsPath (sample_host applying_executor) plain_handler 0
             path_stub fresh_instance eq_refl eq_refl).
  reflexivity.
Defined.

(** X14: the field [migrating] of the instance shadows any method of that
    name: while the flag is false an invocation that names [migrating] is
    answered as an unknown function, whatever operations the handler
    defines. *)
Theorem Invoke_of_cleared_flag (H : Host) (C : Handler) (fuel : nat)
    (stub : Stub) (st : State) :
  fcn stub = "migrating" ->
  migrating st = false ->
  Invoke H C fuel stub st =
    (emit (EvLog Error (LUnknownFunction "migrating"))
       (emit (EvLog Info (LInvoked (className C) "migrating" (txID stub))) st),
     Returned (unknown_function_failure H "migrating")).
Proof.
  intros Hname Hflag.
  rewrite Invoke_unfold_self, Invoke_body_reads_falsy; [by rewrite Hname|].
  exists (VBool false). rewrite Hname. unfold member; simpl. by rewrite Hflag.
Qed.

Lemma Invoke_of_cleared_flag_witness :
  snd (Invoke (sample_host applying_executor)
         {| className := "Shadowed";
            migrationsPath := None;
            transactionHelperFor := None;
            operations := {[ "migrating" := (fun _ _ _ => ret (VBool true)) : operation ]};
            inherited_call := no_inherited_call |}
         0 (mkStub "migrating" [] "tx-9") instance_with_global_setup) =
    Returned (unknown_function_failure (sample_host applying_executor) "migrating").
Proof.
  by rewrite (Invoke_of_cleared_flag (sample_host applying_executor) _ 0
                (mkStub "migrating" [] "tx-9") instance_with_global_setup eq_refl eq_refl).
Defined.

(** X15: [ping] ignores its arguments: in a process with a global
    [setup], an invocation of [ping] with any parameters returns the success
    result whose payload is the UTF-8 text of the serialized literal, and
    leaves the flag [migrating] as it was. *)
Theorem Invoke_ping_ignores_parameters (H : Host) (C : Handler) (fuel : nat)
    (stub : Stub) (st : State) (s : string) :
  fcn stub = "ping" ->
  operations C !! "ping" = None ->
  transactionHelperFor C = None ->
  is_Some (globals st !! "setup") ->
  JSON_stringify H (normalizePayload H (VStr "pong")) = Some s ->
  snd (Invoke H C fuel stub st) = Returned (shim_success H (VBuffer (utf8 s))) /\
  migrating (fst (Invoke H C fuel stub st)) = migrating st.
Proof.
  intros Hname Hops Hdef Hsetup Hjson.
  assert (Hm : member C st (fcn stub) = Returned (VFun BasePing)).
  { rewrite Hname. unfold member; simpl. by rewrite Hops. }
  rewrite Invoke_unfold_self, (Invoke_body_bound H C _ stub st _ Hm) by done.
  unfold try_catch, after_call, bind, ping, ret, lift, prepareResponsePayload; simpl.
  by rewrite Hjson.
Qed.

Lemma Invoke_ping_ignores_parameters_witness :
  snd (Invoke (sample_host applying_executor) plain_handler 1
         (mkStub "ping" ["123"; "not-json"] "tx-10") instance_with_global_setup) =
    Returned (shim_success (sample_host applying_executor)
                (VBuffer (utf8 (quote "pong")))).
Proof.
  apply (Invoke_ping_ignores_parameters (sample_host applying_executor) plain_handler 1
           (mkStub "ping" ["123"; "not-json"] "tx-10") instance_with_global_setup
           (quote "pong")); try reflexivity.
  exists VUndefined. reflexivity.
Defined.

Lemma get_field_returns_or_throws (o : value) (p : string) :
  get_field o p <> Diverged.
Proof.
  unfold get_field. destruct o; try discriminate. destruct (find _ _); discriminate.
Qed.

(** X16: in a process without a global [setup], and with the default
    transaction helper, no invocation ever reaches an operation: for every
    name that resolves, [Invoke] calls no method and no migration executor,
    leaves the flag and the globals as they were, and ends by throwing
    or by returning the ParsingParametersError failure of line 120. *)
Theorem Invoke_calls_nothing_without_global_setup (H : Host) (C : Handler)
    (fuel : nat) (stub : Stub) (st : State) (v : value) :
  member C st (fcn stub) = Returned v ->
  truthy v = true ->
  transactionHelperFor C = None ->
  globals st !! "setup" = None ->
  let r := Invoke H C fuel stub st in
  (forall e, e ∈ drop (length (trace st)) (trace (fst r)) ->
             match e with EvCall _ _ | EvExecutor _ _ => False | _ => True end) /\
  migrating (fst r) = migrating st /\
  globals (fst r) = globals st /\
  ((exists err, snd r = Thrown err) \/
   snd r = Returned (shim_error H (serialized H
             (new_ChaincodeError PARSING_PARAMETERS_ERROR
                (VObj [("message", VStr "setup is not defined")]))))).
Proof.
  intros Hv Htruthy Hdef Hsetup r. subst r.
  rewrite Invoke_unfold_self, (Invoke_body_unbound_setup H C _ stub st v) by done.
  unfold Invoke_catch, bind, tell, modify, read_global, lift; simpl.
  destruct (globals st !! "ret") as [r|]; simpl;
    [destruct (get_field r "fcn") as [f|err|] eqn:Hfield; simpl;
       [ | | by destruct (get_field_returns_or_throws r "fcn")]|].
  all: split; [| split; [reflexivity | split; [reflexivity|]]].
  all: try (rewrite <- !app_assoc, drop_app_length; intros e He;
            repeat (apply elem_of_cons in He as [->|He]; [done|]);
            by apply elem_of_nil in He).
  all: first [right; reflexivity | left; by eexists].
Qed.

Lemma Invoke_calls_nothing_without_global_setup_witness :
  migrating (fst (Invoke (sample_host applying_executor) echo_handler 1 echo_stub
                    fresh_instance)) = false /\
  exists err,
    snd (Invoke (sample_host applying_executor) echo_handler 1 echo_stub fresh_instance)
      = Thrown err.
Proof.
  destruct (Invoke_calls_nothing_without_global_setup (sample_host applying_executor)
              echo_handler 1 echo_stub fresh_instance (VFun (UserOp "echo"))
              eq_refl eq_refl eq_refl eq_refl) as (_ & Hflag & _ & _).
  split; [exact Hflag|]. eexists. reflexivity.
Defined.
